(** * Prompt generator chatbot (examples/chatbots/information-gather-prompting.ipynb)

    A shallow embedding of the notebook's message helpers, its state
    function [get_state], the two chains and the graph wiring, together
    with the properties of the design document that concern them. *)

From stdpp Require Import base option list strings gmap.

Set Default Proof Using "Type".
Open Scope string_scope.
Open Scope list_scope.

(** ** Python exceptions and fallible computations *)

Module Py.

(** The exceptions the embedded code can raise.  [IndexError] is what
    [messages[-1]] and [tool_calls[0]] raise on an empty list (the design
    document calls the first one EmptyThread); [KeyError] and [TypeError]
    come from subscripting [additional_kwargs]; [GenerationFailed] stands
    for any exception raised by a language-model call;
    [GraphRecursionError] is the engine giving up after its step budget. *)
Inductive exn :=
| IndexError
| KeyError
| TypeError
| GenerationFailed
| GraphRecursionError.

Inductive result (A : Type) :=
| Ok (a : A)
| Raise (e : exn).
Arguments Ok {A} a.
Arguments Raise {A} e.

Definition bind {A B} (r : result A) (k : A → result B) : result B :=
  match r with
  | Ok a => k a
  | Raise e => Raise e
  end.

Definition is_Ok {A} (r : result A) : Prop := ∃ a, r = Ok a.

(** [str(x)] for the one place where the code formats a value that may be
    [None]. *)
Definition str (o : option string) : string :=
  match o with
  | None => "None"
  | Some s => s
  end.

End Py.
Import Py.

#[global] Instance result_bind : MBind result := λ A B k r, Py.bind r k.
#[global] Instance result_ret : MRet result := λ A a, Ok a.

#[global] Instance exn_eq_dec : EqDecision exn.
Proof. solve_decision. Defined.

(** ** Messages *)

(** The message classes of langchain_core that the notebook handles. *)
Inductive role := human | assistant | system.

#[global] Instance role_eq_dec : EqDecision role.
Proof. solve_decision. Defined.

(** One entry of the [tool_calls] list of an assistant message:
    [{'id': .., 'function': {'arguments': .., 'name': ..}, 'type': ..}]. *)
Record function_call := { arguments : string; name : string }.
Record tool_call := { tc_id : string; tc_function : function_call; tc_type : string }.

(** A value stored in [additional_kwargs]: the list of tool calls, or a
    value that cannot be subscripted, such as [None]. *)
Inductive kwvalue :=
| ToolCalls (tcs : list tool_call)
| Opaque (s : string).

Record message := {
  msg_role : role;
  content : string;
  additional_kwargs : gmap string kwvalue
}.

Definition HumanMessage (c : string) : message :=
  {| msg_role := human; content := c; additional_kwargs := ∅ |}.
Definition SystemMessage (c : string) : message :=
  {| msg_role := system; content := c; additional_kwargs := ∅ |}.
Definition AIMessage (c : string) (kw : gmap string kwvalue) : message :=
  {| msg_role := assistant; content := c; additional_kwargs := kw |}.

Definition isinstance_HumanMessage (m : message) : bool :=
  bool_decide (msg_role m = human).

(** Every message class declares the field [additional_kwargs], so the
    [hasattr] test of [_is_tool_call] succeeds on each of them. *)
Definition hasattr_additional_kwargs (m : message) : bool := true.

(** ** Helper for determining if tool was called *)

Definition _is_tool_call (msg : message) : bool :=
  hasattr_additional_kwargs msg
  && bool_decide (is_Some (additional_kwargs msg !! "tool_calls")).

(** ** The state logic *)

(** The values [get_state] returns: the node names ["info"] and ["prompt"],
    and [END]. *)
Inductive state := info | prompt | END.

#[global] Instance state_eq_dec : EqDecision state.
Proof. solve_decision. Defined.

(** [messages[-1]] *)
Definition last_message (messages : list message) : result message :=
  match last messages with
  | Some m => Ok m
  | None => Raise IndexError
  end.

(** The [for m in messages] loop of [get_state], with its early return, and
    the [return "info"] that follows the loop. *)
Fixpoint get_state_scan (messages : list message) : state :=
  match messages with
  | [] => info
  | m :: rest => if _is_tool_call m then prompt else get_state_scan rest
  end.

Definition get_state (messages : list message) : result state :=
  latest ← last_message messages;
  if _is_tool_call latest then Ok prompt
  else if negb (isinstance_HumanMessage latest) then Ok END
  else Ok (get_state_scan messages).

(** ** The Router as the design document words it *)

Module Design.

Inductive Mode := Gathering | Generating | AwaitingInput.

Definition mode_of_state (s : state) : Mode :=
  match s with
  | info => Gathering
  | prompt => Generating
  | END => AwaitingInput
  end.

(** The three ordered rules, stated on the latest Turn and the whole
    sequence; a Turn is a mode-switch when the Signal Detector says so. *)
Definition router_rules (latest : message) (thread : list message) : Mode :=
  if _is_tool_call latest then Generating
  else if bool_decide (msg_role latest ≠ human) then AwaitingInput
  else if existsb _is_tool_call thread then Generating
  else Gathering.

End Design.

(** ** Gather information *)

Definition template : string :=
  "Your job is to get information from a user about what type of prompt template they want to create.

You should get the following information from them:

- What the objective of the prompt is
- What variables will be passed into the prompt template
- Any constraints for what the output should NOT do
- Any requirements that the output MUST adhere to

If you are not able to discerne this info, ask them to clarify! Do not attempt to wildly guess.

After you are able to discerne all the information, call the relevant tool".

Definition get_messages_info (messages : list message) : list message :=
  [SystemMessage template] ++ messages.

(** ** Generate prompt *)

(** [prompt_system.format(reqs=tool_call)]: the placeholder [{reqs}] ends the
    template, so formatting appends [str(tool_call)]. *)
Definition prompt_system_prefix : string :=
  "Based on the following requirements, write a good prompt template:

".

Definition prompt_system_format (reqs : option string) : string :=
  prompt_system_prefix +:+ Py.str reqs.

(** [m.additional_kwargs["tool_calls"][0]["function"]["arguments"]] on the
    values [kwvalue] holds: a missing key raises [KeyError], the empty list
    raises [IndexError] at [[0]], a value that cannot be subscripted raises
    [TypeError], and the first record of a list gives its arguments. *)
Definition tool_call_arguments (m : message) : result string :=
  match additional_kwargs m !! "tool_calls" with
  | None => Raise KeyError
  | Some (Opaque _) => Raise TypeError
  | Some (ToolCalls []) => Raise IndexError
  | Some (ToolCalls (tc :: _)) => Ok (arguments (tc_function tc))
  end.

(** The loop of [get_prompt_messages], carrying its two local variables. *)
Fixpoint get_prompt_messages_loop (messages : list message)
    (tool_call : option string) (other_msgs : list message)
  : result (option string * list message) :=
  match messages with
  | [] => Ok (tool_call, other_msgs)
  | m :: rest =>
      if _is_tool_call m then
        a ← tool_call_arguments m;
        get_prompt_messages_loop rest (Some a) other_msgs
      else if bool_decide (tool_call ≠ None) then
        get_prompt_messages_loop rest tool_call (other_msgs ++ [m])
      else
        get_prompt_messages_loop rest tool_call other_msgs
  end.

Definition get_prompt_messages (messages : list message) : result (list message) :=
  '(tool_call, other_msgs) ← get_prompt_messages_loop messages None [];
  Ok ([SystemMessage (prompt_system_format tool_call)] ++ other_msgs).

(** The Generating handler's request as the design document words it: the
    payload of the first mode-switch Turn in the instruction, then the Turns
    after that Turn.  [None] when the thread has no mode-switch Turn or its
    payload cannot be extracted. *)
Fixpoint after_first_switch (thread : list message) : option (message * list message) :=
  match thread with
  | [] => None
  | m :: rest => if _is_tool_call m then Some (m, rest) else after_first_switch rest
  end.

Definition design_request (thread : list message) : option (list message) :=
  match after_first_switch thread with
  | None => None
  | Some (m, rest) =>
      match tool_call_arguments m with
      | Ok a => Some (SystemMessage (prompt_system_format (Some a)) :: rest)
      | Raise _ => None
      end
  end.

(** ** The language model *)

(** What a chat-model call returns: the text and the [additional_kwargs] of
    the AIMessage it builds.  [None] is a call that raised. *)
Record completion := { text : string; kwargs : gmap string kwvalue }.

Definition generator := list message → option completion.

Definition invoke (g : generator) (request : list message) : result message :=
  match g request with
  | Some c => Ok (AIMessage (text c) (kwargs c))
  | None => Raise GenerationFailed
  end.

(** ** The graph *)

Section Graph.

(** [llm_with_tool = llm.bind_tools([PromptInstructions])] and [llm]. *)
Variable llm_with_tool : generator.
Variable llm : generator.

(** [chain = get_messages_info | llm_with_tool] *)
Definition chain (messages : list message) : result message :=
  invoke llm_with_tool (get_messages_info messages).

(** [prompt_gen_chain = get_prompt_messages | llm] *)
Definition prompt_gen_chain (messages : list message) : result message :=
  request ← get_prompt_messages messages;
  invoke llm request.

(** [workflow.add_node("info", chain)], [workflow.add_node("prompt", prompt_gen_chain)] *)
Definition node_action (k : state) : option (list message → result message) :=
  match k with
  | info => Some chain
  | prompt => Some prompt_gen_chain
  | END => None
  end.

(** [nodes = {k: k for k in ["info", "prompt", END]}] *)
Definition nodes (k : state) : state := k.

(** [workflow.add_conditional_edges("info", get_state, nodes)] and the same
    for ["prompt"]. *)
Definition conditional_edges (source : state) (messages : list message) : result state :=
  match source with
  | info | prompt => k ← get_state messages; Ok (nodes k)
  | END => Ok END
  end.

(** [workflow.set_entry_point("info")] *)
Definition entry_point : state := info.

(** Modelled from the spec: the checkpointer ([SqliteSaver]) is not in the
    notebook.  Section 6 of the design document gives its interface:
    [load(threadId)] returns the persisted sequence of Turns, the empty
    sequence for an unseen id. *)
Definition load (cp : gmap string (list message)) (thread_id : string) : list message :=
  default [] (cp !! thread_id).

(** Modelled from the spec: [save(threadId, turns)] of section 6; it
    replaces what the store holds under that id. *)
Definition save (cp : gmap string (list message)) (thread_id : string)
    (thread : list message) : gmap string (list message) :=
  <[thread_id := thread]> cp.

(** What one call of the graph leaves behind: the checkpoint store, the
    nodes it invoked in order (a node whose chain raised included), and
    either the Turns produced or the exception raised to the caller. *)
Record run := {
  store : gmap string (list message);
  invoked : list state;
  outcome : result (list message)
}.

(** Modelled from the spec: the engine that runs the compiled graph
    (MessageGraph.stream) and its checkpointer are not in the notebook.
    Following section 4.5 of the design document, the engine invokes the
    handler of the current node on the in-memory thread, appends the Turn
    it returns, persists the updated thread, and asks the conditional edge
    of that node for the next one; on END it persists and returns the
    Turns produced; a handler that raises aborts the call with the store
    as last persisted.  Which node runs first and which edge follows each
    node are the notebook's wiring.  [fuel] bounds the number of handler
    invocations of one call. *)
Fixpoint run_from (fuel : nat) (cur : state) (cp : gmap string (list message))
    (thread_id : string) (thread : list message)
    (called : list state) (produced : list message) : run :=
  match node_action cur with
  | None =>
      {| store := save cp thread_id thread; invoked := called; outcome := Ok produced |}
  | Some handler =>
      match fuel with
      | 0 => {| store := cp; invoked := called; outcome := Raise GraphRecursionError |}
      | S fuel' =>
          match handler thread with
          | Raise e => {| store := cp; invoked := called ++ [cur]; outcome := Raise e |}
          | Ok turn =>
              let thread' := thread ++ [turn] in
              let cp' := save cp thread_id thread' in
              match conditional_edges cur thread' with
              | Raise e =>
                  {| store := cp'; invoked := called ++ [cur]; outcome := Raise e |}
              | Ok next =>
                  run_from fuel' next cp' thread_id thread'
                    (called ++ [cur]) (produced ++ [turn])
              end
          end
      end
  end.

(** Modelled from the spec: [submit(threadId, humanInput)] of section 4.5,
    which the notebook reaches as [graph.stream([HumanMessage(content=user)],
    config)]: load the thread, append the human Turn, run the graph from
    its entry point. *)
Definition submit (fuel : nat) (cp : gmap string (list message))
    (thread_id : string) (user : string) : run :=
  run_from fuel entry_point cp thread_id
    (load cp thread_id ++ [HumanMessage user]) [] [].

End Graph.

(** ** Concrete threads and generators used in the examples *)

Module Sample.

Definition instructions (args : string) : tool_call :=
  {| tc_id := "call_1";
     tc_function := {| arguments := args; name := "PromptInstructions" |};
     tc_type := "function" |}.

Definition with_tool_calls (tcs : list tool_call) : gmap string kwvalue :=
  {["tool_calls" := ToolCalls tcs]}.

(** An assistant Turn that calls the tool with the given arguments. *)
Definition ready (args : string) : message :=
  AIMessage "Got it." (with_tool_calls [instructions args]).

(** [HumanMessage(content="ok", additional_kwargs={"tool_calls": [...]})] *)
Definition human_with_tool_calls : message :=
  {| msg_role := human; content := "ok";
     additional_kwargs := with_tool_calls [instructions "reqs"] |}.

(** A thread in which the tool was called once, ending on a human Turn. *)
Definition refining : list message :=
  [HumanMessage "hi!"; ready "first reqs"; AIMessage "a prompt" ∅;
   HumanMessage "looks good"].

(** A thread in which the tool was called twice. *)
Definition called_twice : list message :=
  [HumanMessage "hi!"; ready "first reqs"; HumanMessage "json please";
   ready "second reqs"; HumanMessage "shorter"].

(** A thread whose tool-calling Turn has an empty [tool_calls] list. *)
Definition empty_call : list message :=
  [HumanMessage "hi!"; AIMessage "Got it." (with_tool_calls [])].

(** A thread with no tool call. *)
Definition gathering : list message :=
  [HumanMessage "hi!"; AIMessage "Hello! How can I assist you today?" ∅;
   HumanMessage "build me a prompt for extraction"].

(** Generators: one that answers in plain text, one that calls the tool,
    one whose call raises. *)
Definition plain (reply : string) : generator :=
  λ _, Some {| text := reply; kwargs := ∅ |}.
Definition failing : generator := λ _, None.

(** A checkpoint store holding the thread [refining] minus its last human
    Turn under the id ["t1"]. *)
Definition generated : list message :=
  [HumanMessage "hi!"; ready "first reqs"; AIMessage "a prompt" ∅].
Definition checkpoints : gmap string (list message) := {["t1" := generated]}.

(** A budget of handler invocations, ample for the examples. *)
Definition step_budget : nat := 25.

(** A submit on the thread of [checkpoints], which already holds a tool
    call, with both models answering in plain text. *)
Definition refinement_request : run :=
  submit (plain "Which part?") (plain "a shorter prompt") step_budget
    checkpoints "t1" "make it shorter".

End Sample.

(** ** Use the graph: the interactive loop *)

Module Session.

(** What the loop writes to the terminal: the prompt of [input(..)] and the
    argument of each [print(..)]. *)
Inductive event :=
| Prompt (s : string)
| Print (s : string).

(** How the [while True] loop ends: the [break] after a quit input, the
    [EOFError] of [input] when the terminal has no more lines, or an
    exception raised while the graph streams. *)
Inductive ending :=
| Quit
| EOFError
| Raised (e : exn).

(** [{"q", "Q"}] *)
Definition quit_inputs : gset string := {["q"; "Q"]}.

Definition newline : string := String (Ascii.ascii_of_nat 10) EmptyString.

Section Loop.

(** The graph as the loop sees it: [graph.stream([HumanMessage(content=user)],
    config)] with the one [config] of the session, from the state [G] the
    checkpointer holds.  It yields dictionaries (in insertion order) keyed
    by node name and may raise after some of them; [show] is [str(value)]. *)
Variable G : Type.
Variable V : Type.
Variable show : V → string.
Variable stream : G → string → G * list (list (string * V)) * option exn.

(** ["__end__" in output] *)
Definition has_end (output : list (string * V)) : bool :=
  bool_decide ("__end__" ∈ output.*1).

(** The body of [for output in graph.stream(..)]. *)
Definition print_output (output : list (string * V)) : list event :=
  if has_end output then []
  else
    flat_map (λ kv, [Print ("Output from node '" +:+ kv.1 +:+ "':");
                     Print "---";
                     Print (show kv.2)]) output
    ++ [Print (newline +:+ "---" +:+ newline)].

(** The [while True] loop over the lines the user types. *)
Fixpoint session (inputs : list string) (g : G) : list event * ending :=
  match inputs with
  | [] => ([Prompt "User (q/Q to quit): "], EOFError)
  | user :: rest =>
      if bool_decide (user ∈ quit_inputs) then
        ([Prompt "User (q/Q to quit): "; Print "AI: Byebye"], Quit)
      else
        let '(g', outputs, raised) := stream g user in
        let printed := Prompt "User (q/Q to quit): " :: flat_map print_output outputs in
        match raised with
        | Some e => (printed, Raised e)
        | None =>
            let '(later, how) := session rest g' in
            (printed ++ later, how)
        end
  end.

End Loop.

End Session.

(** ** Further concrete inputs *)

Module Cases.

(** A tool-call Turn whose [tool_calls] entry is not a list of calls. *)
Definition malformed : message :=
  AIMessage "Got it." {["tool_calls" := Opaque "null"]}.

(** Two threads with the same roles and the same tool-call Turns but other
    texts. *)
Definition thread_a : list message :=
  [HumanMessage "hi!"; Sample.ready "first reqs"; HumanMessage "looks good"].
Definition thread_b : list message :=
  [HumanMessage "hello"; Sample.ready "other reqs"; HumanMessage "make it shorter"].


(** A graph that answers every input with one Turn of the node ["info"]
    and the closing ["__end__"] entry, counting the calls. *)
Definition echo (g : nat) (user : string) : nat * list (list (string * string)) * option exn :=
  (S g, [[("info", user)]; [("__end__", user)]], None).

End Cases.

(** * Properties *)

(** ** The Signal Detector *)

Lemma is_tool_call_lookup (m : message) :
  _is_tool_call m = true ↔ is_Some (additional_kwargs m !! "tool_calls").
Proof.
  unfold _is_tool_call, hasattr_additional_kwargs. simpl.
  by rewrite bool_decide_eq_true.
Qed.

Lemma is_tool_call_false (m : message) :
  _is_tool_call m = false ↔ additional_kwargs m !! "tool_calls" = None.
Proof.
  unfold _is_tool_call, hasattr_additional_kwargs. simpl.
  rewrite bool_decide_eq_false. by rewrite eq_None_not_Some.
Qed.

(** C4 as stated fails: a human Turn whose [additional_kwargs] holds
    [tool_calls] is reported as a tool call, so the detector is not
    "assistant and payload present". *)
Lemma is_tool_call_ignores_role :
  msg_role Sample.human_with_tool_calls = human
  ∧ _is_tool_call Sample.human_with_tool_calls = true
  ∧ ¬ (∀ m : message,
         _is_tool_call m = true
         ↔ msg_role m = assistant ∧ is_Some (additional_kwargs m !! "tool_calls")).
Proof.
  split; [done|]. split; [by vm_compute|].
  intros H. destruct (proj1 (H Sample.human_with_tool_calls)) as [Hr _].
  - by vm_compute.
  - discriminate Hr.
Qed.

(** C4, amended: for every Turn, whatever its role, [_is_tool_call] is true
    exactly when the key [tool_calls] is present in the Turn's
    [additional_kwargs]; the role is not examined.  On Turns that respect
    the data model (only assistant Turns carry the payload) this is the
    same as "assistant and payload present". *)
Theorem is_tool_call_iff_key_present (r : role) (c : string) (kw : gmap string kwvalue) :
  (_is_tool_call {| msg_role := r; content := c; additional_kwargs := kw |} = true
   ↔ "tool_calls" ∈ dom kw)
  ∧ (("tool_calls" ∈ dom kw → r = assistant) →
     (_is_tool_call {| msg_role := r; content := c; additional_kwargs := kw |} = true
      ↔ r = assistant ∧ "tool_calls" ∈ dom kw)).
Proof.
  assert (_is_tool_call {| msg_role := r; content := c; additional_kwargs := kw |} = true
          ↔ "tool_calls" ∈ dom kw) as Hiff.
  { rewrite is_tool_call_lookup. simpl. by rewrite elem_of_dom. }
  split; [done|]. intros Hinv. rewrite Hiff.
  split; [intros Hkey; split; [by apply Hinv|done] | by intros [_ Hkey]].
Qed.

(** ** The Router *)

Lemma get_state_scan_existsb (messages : list message) :
  get_state_scan messages = if existsb _is_tool_call messages then prompt else info.
Proof.
  induction messages as [|m rest IH]; simpl; [done|].
  destruct (_is_tool_call m); simpl; done.
Qed.

Lemma existsb_elem_of (messages : list message) (m : message) :
  m ∈ messages → _is_tool_call m = true → existsb _is_tool_call messages = true.
Proof.
  intros Hin Hm. apply existsb_exists. exists m. split; [|done].
  by apply list_elem_of_In.
Qed.

Lemma last_message_Some (messages : list message) (latest : message) :
  last messages = Some latest → last_message messages = Ok latest.
Proof. unfold last_message. by intros ->. Qed.

Lemma get_state_unfold (messages : list message) (latest : message) :
  last messages = Some latest →
  get_state messages =
    if _is_tool_call latest then Ok prompt
    else if negb (isinstance_HumanMessage latest) then Ok END
    else Ok (get_state_scan messages).
Proof. intros H. unfold get_state. by rewrite (last_message_Some _ _ H). Qed.

(** C1: on a non-empty sequence of Turns whose latest Turn is [latest],
    [get_state] returns the mode the three ordered rules give. *)
Theorem get_state_three_rules (messages : list message) (latest : message) :
  last messages = Some latest →
  ∃ s, get_state messages = Ok s
       ∧ Design.mode_of_state s = Design.router_rules latest messages.
Proof.
  intros Hlast. rewrite (get_state_unfold _ _ Hlast).
  unfold Design.router_rules, isinstance_HumanMessage.
  destruct (_is_tool_call latest); [by eexists|].
  destruct (decide (msg_role latest = human)) as [Hh|Hh].
  - rewrite (bool_decide_eq_true_2 _ Hh). simpl.
    rewrite bool_decide_eq_false_2 by (intros Hn; by apply Hn).
    eexists; split; [done|]. rewrite get_state_scan_existsb.
    by destruct (existsb _is_tool_call messages).
  - rewrite (bool_decide_eq_false_2 _ Hh). simpl.
    rewrite (bool_decide_eq_true_2 _ Hh). by eexists.
Qed.

Lemma get_state_three_rules_witness :
  last Sample.gathering = Some (HumanMessage "build me a prompt for extraction")
  ∧ ∃ s, get_state Sample.gathering = Ok s
         ∧ Design.mode_of_state s
           = Design.router_rules (HumanMessage "build me a prompt for extraction")
               Sample.gathering.
Proof.
  split; [reflexivity|].
  apply (get_state_three_rules Sample.gathering). reflexivity.
Defined.

(** C2: in a thread that contains a tool-call Turn anywhere, a Router
    evaluation whose latest Turn is a human Turn yields [prompt]
    (Generating) and not [info] (Gathering), whatever follows the tool
    call. *)
Theorem get_state_latch (messages : list message) (m latest : message) :
  m ∈ messages → _is_tool_call m = true →
  last messages = Some latest → msg_role latest = human →
  get_state messages = Ok prompt ∧ get_state messages ≠ Ok info.
Proof.
  intros Hin Hm Hlast Hh.
  assert (get_state messages = Ok prompt) as ->; [|done].
  rewrite (get_state_unfold _ _ Hlast).
  destruct (_is_tool_call latest); [done|].
  unfold isinstance_HumanMessage. rewrite (bool_decide_eq_true_2 _ Hh). simpl.
  rewrite get_state_scan_existsb. by rewrite (existsb_elem_of _ _ Hin Hm).
Qed.

Lemma get_state_latch_witness :
  get_state Sample.refining = Ok prompt ∧ get_state Sample.refining ≠ Ok info.
Proof.
  apply (get_state_latch Sample.refining (Sample.ready "first reqs")
           (HumanMessage "looks good")).
  - apply list_elem_of_In. simpl. tauto.
  - vm_compute. reflexivity.
  - reflexivity.
  - reflexivity.
Defined.

(** C8: on the empty sequence [get_state] raises (the [IndexError] of
    [messages[-1]], the design document's EmptyThread) and returns no mode;
    on every non-empty sequence it returns a mode. *)
Theorem get_state_total_on_nonempty (messages : list message) :
  match messages with
  | [] => get_state messages = Raise IndexError
  | _ :: _ => ∃ s, get_state messages = Ok s
  end.
Proof.
  destruct messages as [|m rest]; [done|].
  destruct (last (m :: rest)) as [latest|] eqn:Hlast.
  - rewrite (get_state_unfold _ _ Hlast).
    destruct (_is_tool_call latest); [by eexists|].
    destruct (negb (isinstance_HumanMessage latest)); by eexists.
  - apply last_None in Hlast. discriminate.
Qed.

(** ** The Generating handler's message builder *)

Section GetPromptMessages.

Implicit Types (messages other : list message) (m : message).

Local Abbreviation is_call := (λ m : message, _is_tool_call m = true).
Local Abbreviation not_call := (λ m : message, _is_tool_call m = false).

Lemma loop_before_first_call messages other :
  Forall not_call messages →
  get_prompt_messages_loop messages None other = Ok (None, other).
Proof.
  intros Hno. revert other.
  induction Hno as [|m rest Hm _ IH]; intros other; simpl; [done|].
  rewrite Hm. apply IH.
Qed.

Lemma loop_after_first_call messages other (cur : message) (a : string) :
  tool_call_arguments cur = Ok a →
  Forall (λ m, _is_tool_call m = true → is_Ok (tool_call_arguments m)) messages →
  ∃ l b, last (cur :: filter is_call messages) = Some l
         ∧ tool_call_arguments l = Ok b
         ∧ get_prompt_messages_loop messages (Some a) other
           = Ok (Some b, other ++ filter not_call messages).
Proof.
  intros Hcur Hwf. revert cur a other Hcur.
  induction Hwf as [|m rest Hm _ IH]; intros cur a other Hcur.
  - exists cur, a. simpl. by rewrite app_nil_r.
  - simpl. destruct (_is_tool_call m) eqn:Hc.
    + destruct (Hm eq_refl) as [a' Ha']. rewrite Ha'. simpl.
      destruct (IH m a' other Ha') as (l & b & Hl & Hb & Hloop).
      exists l, b. rewrite filter_cons_True by done.
      rewrite filter_cons_False by (by rewrite Hc).
      split; [|done]. by rewrite last_cons_cons.
    + destruct (IH cur a (other ++ [m]) Hcur) as (l & b & Hl & Hb & Hloop).
      exists l, b. rewrite filter_cons_False by (by rewrite Hc).
      rewrite filter_cons_True by done.
      split; [done|]. split; [done|].
      rewrite Hloop. by rewrite <- app_assoc.
Qed.

(** The loop either returns, having kept only Turns that are not tool
    calls, or raises what extracting the arguments of one of the tool-call
    Turns raises. *)
Lemma loop_keeps_no_call messages (tool_call : option string) other :
  match get_prompt_messages_loop messages tool_call other with
  | Ok (_, other') => ∃ kept, other' = other ++ kept ∧ Forall not_call kept
  | Raise e => ∃ m, m ∈ messages ∧ _is_tool_call m = true ∧ tool_call_arguments m = Raise e
  end.
Proof.
  revert tool_call other.
  induction messages as [|m rest IH]; intros tool_call other; simpl.
  - exists []. by rewrite app_nil_r.
  - destruct (_is_tool_call m) eqn:Hc.
    + destruct (tool_call_arguments m) as [a|e] eqn:Ha; simpl.
      * specialize (IH (Some a) other).
        destruct (get_prompt_messages_loop rest (Some a) other) as [[tc other']|e].
        -- done.
        -- destruct IH as (m' & Hin & H1 & H2). exists m'. split; [by right|done].
      * exists m. split; [by left|done].
    + assert (∀ other0,
        match get_prompt_messages_loop rest tool_call other0 with
        | Ok (_, other') => ∃ kept, other' = other0 ++ kept ∧ Forall not_call kept
        | Raise e => ∃ m', m' ∈ m :: rest ∧ _is_tool_call m' = true
                           ∧ tool_call_arguments m' = Raise e
        end) as IH'.
      { intros other0. specialize (IH tool_call other0).
        destruct (get_prompt_messages_loop rest tool_call other0) as [[tc other']|e].
        - done.
        - destruct IH as (m' & Hin & H1 & H2). exists m'. split; [by right|done]. }
      destruct (bool_decide (tool_call ≠ None)).
      * specialize (IH' (other ++ [m])).
        destruct (get_prompt_messages_loop rest tool_call (other ++ [m]))
          as [[tc other']|e]; [|done].
        destruct IH' as (kept & -> & Hkept). exists (m :: kept).
        split; [by rewrite <- app_assoc|]. by constructor.
      * apply IH'.
Qed.


Lemma loop_app messages1 messages2 (tool_call : option string) other :
  get_prompt_messages_loop (messages1 ++ messages2) tool_call other =
  '(tc, other') ← get_prompt_messages_loop messages1 tool_call other;
  get_prompt_messages_loop messages2 tc other'.
Proof.
  revert tool_call other.
  induction messages1 as [|m rest IH]; intros tool_call other; simpl; [done|].
  destruct (_is_tool_call m).
  - destruct (tool_call_arguments m) as [a|e]; simpl; [apply IH|done].
  - destruct (bool_decide (tool_call ≠ None)); apply IH.
Qed.

End GetPromptMessages.

(** C3 as stated fails: with two tool-call Turns in the thread the builder
    substitutes the arguments of the second one and leaves the second
    tool-call Turn out of the history, where the design document's request
    has the first one's payload and every Turn after it; and a tool-call
    Turn with an empty [tool_calls] list makes the builder raise. *)
Lemma get_prompt_messages_not_first_payload :
  existsb _is_tool_call Sample.called_twice = true
  ∧ design_request Sample.called_twice
    = Some [SystemMessage (prompt_system_format (Some "first reqs"));
            HumanMessage "json please"; Sample.ready "second reqs";
            HumanMessage "shorter"]
  ∧ get_prompt_messages Sample.called_twice
    = Ok [SystemMessage (prompt_system_format (Some "second reqs"));
          HumanMessage "json please"; HumanMessage "shorter"]
  ∧ (∀ request, design_request Sample.called_twice = Some request →
       get_prompt_messages Sample.called_twice ≠ Ok request)
  ∧ existsb _is_tool_call Sample.empty_call = true
  ∧ get_prompt_messages Sample.empty_call = Raise IndexError.
Proof.
  split; [by vm_compute|]. split; [by vm_compute|]. split; [by vm_compute|].
  split; [|split; by vm_compute].
  intros request Hd Hg. vm_compute in Hd, Hg.
  injection Hd as <-. discriminate Hg.
Qed.

(** C3, amended: when the thread has a first tool-call Turn [m] and every
    tool-call Turn from [m] on carries a non-empty [tool_calls] list, the
    request is the system instruction with the arguments of the LAST
    tool-call Turn substituted, followed by exactly those Turns after [m]
    that are not tool calls themselves. *)
Theorem get_prompt_messages_last_payload
    (before after : list message) (m last_call : message) (a : string) :
  Forall (λ x, _is_tool_call x = false) before →
  _is_tool_call m = true →
  Forall (λ x, _is_tool_call x = true → is_Ok (tool_call_arguments x)) (m :: after) →
  last (filter (λ x, _is_tool_call x = true) (m :: after)) = Some last_call →
  tool_call_arguments last_call = Ok a →
  get_prompt_messages (before ++ m :: after)
  = Ok (SystemMessage (prompt_system_format (Some a))
        :: filter (λ x, _is_tool_call x = false) after).
Proof.
  intros Hbefore Hm Hwf Hlast Ha.
  unfold get_prompt_messages. rewrite loop_app.
  rewrite (loop_before_first_call _ _ Hbefore). simpl.
  rewrite Hm. apply Forall_cons in Hwf as [Hwm Hwf].
  destruct (Hwm Hm) as [a0 Ha0]. rewrite Ha0. simpl.
  destruct (loop_after_first_call after [] m a0 Ha0 Hwf) as (l & b & Hl & Hb & Hloop).
  rewrite Hloop. simpl.
  rewrite filter_cons_True in Hlast by done.
  rewrite Hl in Hlast. injection Hlast as ->.
  rewrite Ha in Hb. by injection Hb as ->.
Qed.

Lemma get_prompt_messages_last_payload_witness :
  get_prompt_messages Sample.called_twice
  = Ok (SystemMessage (prompt_system_format (Some "second reqs"))
        :: filter (λ x, _is_tool_call x = false)
             [HumanMessage "json please"; Sample.ready "second reqs";
              HumanMessage "shorter"]).
Proof.
  apply (get_prompt_messages_last_payload
           [HumanMessage "hi!"]
           [HumanMessage "json please"; Sample.ready "second reqs";
            HumanMessage "shorter"]
           (Sample.ready "first reqs") (Sample.ready "second reqs")
           "second reqs").
  - repeat constructor.
  - vm_compute. reflexivity.
  - repeat (constructor;
              [intros H; first [by vm_compute in H | eexists; vm_compute; reflexivity]|]).
    constructor.
  - vm_compute. reflexivity.
  - vm_compute. reflexivity.
Defined.

(** C9: on a sequence with no tool-call Turn the builder does not raise; it
    returns the single system instruction whose placeholder reads "None"
    and no history Turn. *)
Theorem get_prompt_messages_without_call (messages : list message) :
  Forall (λ m, _is_tool_call m = false) messages →
  get_prompt_messages messages
  = Ok [SystemMessage (prompt_system_prefix +:+ "None")].
Proof.
  intros Hno. unfold get_prompt_messages.
  by rewrite (loop_before_first_call _ _ Hno).
Qed.

Lemma get_prompt_messages_without_call_witness :
  get_prompt_messages Sample.gathering
  = Ok [SystemMessage (prompt_system_prefix +:+ "None")].
Proof.
  apply (get_prompt_messages_without_call Sample.gathering).
  repeat constructor.
Defined.

(** C10: whenever the builder returns, its result is one system instruction
    followed by a history that holds no tool-call Turn; and it returns
    unless extracting the arguments of some tool-call Turn of the input
    raises, in which case it raises the same exception. *)
Theorem get_prompt_messages_history_has_no_call (messages : list message) :
  match get_prompt_messages messages with
  | Ok request =>
      ∃ instruction history,
        request = instruction :: history
        ∧ msg_role instruction = system
        ∧ Forall (λ m, _is_tool_call m = false) history
  | Raise e =>
      ∃ m, m ∈ messages ∧ _is_tool_call m = true ∧ tool_call_arguments m = Raise e
  end.
Proof.
  unfold get_prompt_messages.
  pose proof (loop_keeps_no_call messages None []) as H.
  destruct (get_prompt_messages_loop messages None []) as [[tc other]|e]; simpl.
  - destruct H as (kept & -> & Hkept). by eexists _, _.
  - done.
Qed.

(** ** The graph: entry point and chaining *)

Section Orchestrator.

Variable llm_with_tool : generator.
Variable llm : generator.

Implicit Types (cp : gmap string (list message)) (thread : list message).

Lemma invoke_assistant (g : generator) (request : list message) (turn : message) :
  invoke g request = Ok turn → msg_role turn = assistant.
Proof. unfold invoke. destruct (g request); [|done]. by intros [= <-]. Qed.


Lemma handler_assistant (k : state) handler thread (turn : message) :
  node_action llm_with_tool llm k = Some handler →
  handler thread = Ok turn → msg_role turn = assistant.
Proof.
  destruct k; simpl; intros [= <-]; [apply invoke_assistant|].
  unfold prompt_gen_chain.
  destruct (get_prompt_messages thread) as [request|e]; simpl; [|done].
  apply invoke_assistant.
Qed.



(** After a handler has appended its assistant Turn, the conditional edge
    leads to [prompt] when that Turn is a tool call and to [END]
    otherwise. *)
Lemma get_state_after_assistant thread (turn : message) :
  msg_role turn = assistant →
  get_state (thread ++ [turn]) = Ok (if _is_tool_call turn then prompt else END).
Proof.
  intros Hr. rewrite (get_state_unfold _ turn) by apply last_snoc.
  destruct (_is_tool_call turn); [done|].
  unfold isinstance_HumanMessage. rewrite Hr. done.
Qed.

Lemma conditional_edges_after_handler (k : state) handler thread (turn : message) :
  node_action llm_with_tool llm k = Some handler →
  handler thread = Ok turn →
  conditional_edges k (thread ++ [turn])
  = Ok (if _is_tool_call turn then prompt else END).
Proof.
  intros Hk Hturn. pose proof (handler_assistant _ _ _ _ Hk Hturn) as Hr.
  destruct k; simpl in *; try done;
    rewrite (get_state_after_assistant _ _ Hr); done.
Qed.

Lemma run_from_END (fuel : nat) cp (thread_id : string) thread
    (called : list state) (produced : list message) :
  run_from llm_with_tool llm fuel END cp thread_id thread called produced
  = {| store := save cp thread_id thread; invoked := called; outcome := Ok produced |}.
Proof. by destruct fuel. Qed.

Lemma run_from_step (fuel : nat) (k : state) handler cp (thread_id : string) thread
    (called : list state) (produced : list message) :
  node_action llm_with_tool llm k = Some handler →
  run_from llm_with_tool llm (S fuel) k cp thread_id thread called produced =
  match handler thread with
  | Raise e => {| store := cp; invoked := called ++ [k]; outcome := Raise e |}
  | Ok turn =>
      run_from llm_with_tool llm fuel (if _is_tool_call turn then prompt else END)
        (save cp thread_id (thread ++ [turn])) thread_id (thread ++ [turn])
        (called ++ [k]) (produced ++ [turn])
  end.
Proof.
  intros Hk. simpl. rewrite Hk.
  destruct (handler thread) as [turn|e] eqn:Hturn; [|done].
  by rewrite (conditional_edges_after_handler _ _ _ _ Hk Hturn).
Qed.

Lemma run_from_invoked_prefix (fuel : nat) (k : state) cp (thread_id : string)
    thread (called : list state) (produced : list message) :
  ∃ ran, invoked (run_from llm_with_tool llm fuel k cp thread_id thread called produced)
         = called ++ ran.
Proof.
  revert k cp thread called produced.
  induction fuel as [|fuel IH]; intros k cp thread called produced.
  - exists []. rewrite app_nil_r. by destruct k.
  - destruct (node_action llm_with_tool llm k) as [handler|] eqn:Hk.
    + rewrite (run_from_step _ _ _ _ _ _ _ _ Hk).
      destruct (handler thread) as [turn|e].
      * destruct (IH (if _is_tool_call turn then prompt else END)
                    (save cp thread_id (thread ++ [turn])) (thread ++ [turn])
                    (called ++ [k]) (produced ++ [turn])) as [ran ->].
        exists (k :: ran). by rewrite <- app_assoc.
      * by exists [k].
    + destruct k; simpl in Hk; try done.
      exists []. rewrite run_from_END. by rewrite app_nil_r.
Qed.


End Orchestrator.



(** Whatever the thread holds, the first handler a submit invokes is
    [info]: the Router is consulted only after a handler has run. *)
Lemma submit_first_handler (llm_with_tool llm : generator) (fuel : nat)
    (cp : gmap string (list message)) (thread_id user : string) :
  head (invoked (submit llm_with_tool llm (S fuel) cp thread_id user)) = Some info.
Proof.
  unfold submit, entry_point.
  rewrite (run_from_step _ _ _ info (chain llm_with_tool)) by done.
  destruct (chain llm_with_tool (load cp thread_id ++ [HumanMessage user]))
    as [turn|e]; [|done].
  match goal with
  | |- context [run_from ?g1 ?g2 ?f ?k ?c ?t ?th ?ca ?pr] =>
      destruct (run_from_invoked_prefix g1 g2 f k c t th ca pr) as [ran ->]
  end.
  done.
Qed.

(** C5 fails on the notebook's wiring.  On a thread that already holds a
    tool call, the Router evaluated on the thread with the new human Turn
    says [prompt] (Generating), yet the handler the submit invokes is
    [info] (Gathering), because the graph always enters at ["info"]. *)
Theorem submit_enters_at_info :
  get_state (load Sample.checkpoints "t1" ++ [HumanMessage "make it shorter"])
  = Ok prompt
  ∧ invoked Sample.refinement_request = [info]
  ∧ outcome Sample.refinement_request = Ok [AIMessage "Which part?" ∅].
Proof. split; [by vm_compute|]. split; by vm_compute. Qed.

(** * Further properties of the notebook's code *)

(** ** When the message builder raises, and what *)

Section BuilderErrors.

Implicit Types (messages other : list message) (m : message).

Local Abbreviation extractable :=
  (λ m : message, _is_tool_call m = true → is_Ok (tool_call_arguments m)).

Lemma is_Ok_Raise {A} (e : exn) : ¬ is_Ok (@Raise A e).
Proof. by intros [a Ha]. Qed.

Lemma loop_ok_iff messages (tool_call : option string) other :
  is_Ok (get_prompt_messages_loop messages tool_call other)
  ↔ Forall extractable messages.
Proof.
  revert tool_call other.
  induction messages as [|m rest IH]; intros tool_call other; simpl.
  - split; [constructor|by eexists].
  - rewrite Forall_cons. destruct (_is_tool_call m) eqn:Hc.
    + destruct (tool_call_arguments m) as [a|e] eqn:Ha; simpl.
      * rewrite IH. split; [intros Hrest; split; [by eexists|done]|by intros [_ Hrest]].
      * split; [by intros ?%is_Ok_Raise|].
        intros [Hm _]. by apply is_Ok_Raise in Hm.
    + destruct (bool_decide (tool_call ≠ None)); rewrite IH;
        (split; [intros Hrest; split; [done|done]|by intros [_ Hrest]]).
Qed.

End BuilderErrors.

(** X1: the builder returns a request exactly when the arguments of every
    tool-call Turn of the input can be extracted, that is when each of them
    holds a non-empty list under [tool_calls]. *)
Theorem get_prompt_messages_ok_iff (messages : list message) :
  is_Ok (get_prompt_messages messages)
  ↔ Forall (λ m, _is_tool_call m = true → is_Ok (tool_call_arguments m)) messages.
Proof.
  rewrite <- (loop_ok_iff messages None []). unfold get_prompt_messages.
  destruct (get_prompt_messages_loop messages None []) as [[tc other]|e]; simpl.
  - split; intros _; by eexists.
  - split; by intros ?%is_Ok_Raise.
Qed.

(** X2: the exception the builder raises is the one of the first tool-call
    Turn whose arguments cannot be extracted; Turns after it are not looked
    at. *)
Theorem get_prompt_messages_first_error
    (before after : list message) (m : message) (e : exn) :
  Forall (λ x, _is_tool_call x = true → is_Ok (tool_call_arguments x)) before →
  _is_tool_call m = true →
  tool_call_arguments m = Raise e →
  get_prompt_messages (before ++ m :: after) = Raise e.
Proof.
  intros Hbefore Hm He. unfold get_prompt_messages. rewrite loop_app.
  destruct (proj2 (loop_ok_iff before None []) Hbefore) as [[tc other] ->].
  simpl. rewrite Hm, He. done.
Qed.

Lemma get_prompt_messages_first_error_witness :
  get_prompt_messages
    ([HumanMessage "hi!"; Sample.ready "first reqs"]
       ++ Cases.malformed :: [AIMessage "Got it." (Sample.with_tool_calls [])])
  = Raise TypeError.
Proof.
  apply (get_prompt_messages_first_error
           [HumanMessage "hi!"; Sample.ready "first reqs"]
           [AIMessage "Got it." (Sample.with_tool_calls [])]
           Cases.malformed TypeError).
  - constructor; [intros H; by vm_compute in H|].
    constructor; [intros _; eexists; vm_compute; reflexivity|constructor].
  - vm_compute. reflexivity.
  - vm_compute. reflexivity.
Defined.

(** X4: Turns before the first tool call have no influence on the request:
    dropping them from the input gives the same result, error included. *)
Theorem get_prompt_messages_ignores_prefix (before rest : list message) :
  Forall (λ m, _is_tool_call m = false) before →
  get_prompt_messages (before ++ rest) = get_prompt_messages rest.
Proof.
  intros Hbefore. unfold get_prompt_messages. rewrite loop_app.
  by rewrite (loop_before_first_call _ _ Hbefore).
Qed.

Lemma get_prompt_messages_ignores_prefix_witness :
  get_prompt_messages
    ([HumanMessage "hi!"; AIMessage "What is the objective?" ∅]
       ++ [Sample.ready "first reqs"; HumanMessage "shorter"])
  = get_prompt_messages [Sample.ready "first reqs"; HumanMessage "shorter"].
Proof.
  apply (get_prompt_messages_ignores_prefix
           [HumanMessage "hi!"; AIMessage "What is the objective?" ∅]).
  repeat constructor.
Defined.

Lemma loop_sublist (messages : list message) (tool_call : option string)
    (other : list message) (tc' : option string) (other' : list message) :
  get_prompt_messages_loop messages tool_call other = Ok (tc', other') →
  ∃ kept, other' = other ++ kept ∧ kept `sublist_of` messages.
Proof.
  revert tool_call other.
  induction messages as [|m rest IH]; intros tool_call other; simpl.
  - intros [= _ <-]. exists []. by rewrite app_nil_r.
  - destruct (_is_tool_call m).
    + destruct (tool_call_arguments m) as [a|e]; simpl; [|done].
      intros (kept & -> & Hsub)%IH. exists kept. split; [done|by constructor].
    + destruct (bool_decide (tool_call ≠ None)).
      * intros (kept & -> & Hsub)%IH. exists (m :: kept).
        split; [by rewrite <- app_assoc|by constructor].
      * intros (kept & -> & Hsub)%IH. exists kept. split; [done|by constructor].
Qed.

(** X5: the history of a request is a subsequence of the input: the builder
    keeps Turns as they are and in their order, and adds none besides the
    system instruction in front. *)
Theorem get_prompt_messages_history_sublist
    (messages request : list message) :
  get_prompt_messages messages = Ok request →
  ∃ instruction history,
    request = instruction :: history
    ∧ additional_kwargs instruction = ∅
    ∧ history `sublist_of` messages
    ∧ (length request ≤ S (length messages))%nat.
Proof.
  unfold get_prompt_messages.
  destruct (get_prompt_messages_loop messages None []) as [[tc other]|e] eqn:Hloop;
    simpl; [|done].
  intros [= <-]. apply loop_sublist in Hloop as (kept & -> & Hsub).
  eexists _, _. split; [done|]. split; [done|]. split; [done|].
  simpl. apply sublist_length in Hsub. lia.
Qed.

Lemma get_prompt_messages_history_sublist_witness :
  ∃ instruction history,
    [SystemMessage (prompt_system_format (Some "second reqs"));
     HumanMessage "json please"; HumanMessage "shorter"] = instruction :: history
    ∧ additional_kwargs instruction = ∅
    ∧ history `sublist_of` Sample.called_twice
    ∧ (length [SystemMessage (prompt_system_format (Some "second reqs"));
               HumanMessage "json please"; HumanMessage "shorter"]
       ≤ S (length Sample.called_twice))%nat.
Proof.
  apply (get_prompt_messages_history_sublist Sample.called_twice).
  vm_compute. reflexivity.
Defined.

(** ** What each answer of the state function means *)

Lemma existsb_false_Forall (messages : list message) :
  existsb _is_tool_call messages = false
  ↔ Forall (λ m, _is_tool_call m = false) messages.
Proof.
  induction messages as [|m rest IH]; simpl.
  - split; [constructor|done].
  - rewrite Forall_cons, orb_false_iff. by rewrite IH.
Qed.

Lemma existsb_true_Exists (messages : list message) :
  existsb _is_tool_call messages = true
  ↔ Exists (λ m, _is_tool_call m = true) messages.
Proof.
  induction messages as [|m rest IH]; simpl.
  - split; [done|by intros ?%Exists_nil].
  - rewrite Exists_cons, orb_true_iff. by rewrite IH.
Qed.

Lemma get_state_Ok_last (messages : list message) (s : state) :
  get_state messages = Ok s → ∃ latest, last messages = Some latest.
Proof.
  unfold get_state, last_message.
  destruct (last messages) as [latest|]; [by eexists|done].
Qed.

(** X6: the three answers of [get_state] characterised.  It answers [info]
    exactly when the latest Turn is human and no Turn at all is a tool
    call; [END] exactly when the latest Turn is neither a tool call nor
    human; [prompt] exactly when the latest Turn is a tool call, or is human
    with a tool call somewhere in the sequence. *)
Theorem get_state_answers (messages : list message) :
  (get_state messages = Ok info
   ↔ ∃ latest, last messages = Some latest
               ∧ msg_role latest = human
               ∧ Forall (λ m, _is_tool_call m = false) messages)
  ∧ (get_state messages = Ok END
     ↔ ∃ latest, last messages = Some latest
                 ∧ _is_tool_call latest = false
                 ∧ msg_role latest ≠ human)
  ∧ (get_state messages = Ok prompt
     ↔ ∃ latest, last messages = Some latest
                 ∧ (_is_tool_call latest = true
                    ∨ (msg_role latest = human
                       ∧ Exists (λ m, _is_tool_call m = true) messages))).
Proof.
  destruct (last messages) as [latest|] eqn:Hlast.
  2: { unfold get_state, last_message. rewrite Hlast. simpl.
       repeat split; try done; by intros (l & [=] & _). }
  rewrite (get_state_unfold _ _ Hlast), get_state_scan_existsb.
  unfold isinstance_HumanMessage.
  destruct (_is_tool_call latest) eqn:Hc.
  { repeat split; try done.
    - intros (l & [= <-] & _ & Hall).
      apply last_Some_elem_of in Hlast.
      rewrite Forall_forall in Hall. specialize (Hall _ Hlast). congruence.
    - intros (l & [= <-] & Hf & _). congruence.
    - intros _. exists latest. split; [done|by left]. }
  destruct (decide (msg_role latest = human)) as [Hh|Hh].
  - rewrite (bool_decide_eq_true_2 _ Hh). simpl.
    destruct (existsb _is_tool_call messages) eqn:Hex.
    + apply existsb_true_Exists in Hex as Hex'.
      repeat split; try done.
      * intros (l & _ & _ & Hall%existsb_false_Forall). congruence.
      * intros (l & [= <-] & _ & Hn). done.
      * intros _. exists latest. split; [done|by right].
    + apply existsb_false_Forall in Hex as Hall.
      repeat split; try done.
      * intros _. by exists latest.
      * intros (l & [= <-] & _ & Hn). done.
      * intros (l & [= <-] & [Hl|[_ Hx%existsb_true_Exists]]); congruence.
  - rewrite (bool_decide_eq_false_2 _ Hh). simpl.
    repeat split; try done.
    + intros (l & [= <-] & Hl & _). done.
    + intros _. by exists latest.
    + intros (l & [= <-] & [Hl|[Hl _]]); congruence.
Qed.

(** X7: [get_state] looks only at which Turns are tool calls and which are
    human; two sequences that agree on that get the same answer, whatever
    their texts and payloads. *)
Theorem get_state_ignores_content (messages1 messages2 : list message) :
  (λ m, (_is_tool_call m, isinstance_HumanMessage m)) <$> messages1
  = (λ m, (_is_tool_call m, isinstance_HumanMessage m)) <$> messages2 →
  get_state messages1 = get_state messages2.
Proof.
  intros Hsame.
  assert (get_state_scan messages1 = get_state_scan messages2) as Hscan.
  { clear -Hsame. revert messages2 Hsame.
    induction messages1 as [|m1 rest1 IH]; intros [|m2 rest2]; simpl; try done.
    intros [= Hc _ Hrest]. rewrite Hc. by rewrite (IH _ Hrest). }
  pose proof (f_equal last Hsame) as Hlast. rewrite !fmap_last in Hlast.
  unfold get_state, last_message. rewrite Hscan.
  destruct (last messages1) as [l1|], (last messages2) as [l2|]; simpl in *; try done.
  injection Hlast as Hc Hh. by rewrite Hc, Hh.
Qed.

Lemma get_state_ignores_content_witness :
  get_state Cases.thread_a = get_state Cases.thread_b.
Proof.
  apply (get_state_ignores_content Cases.thread_a Cases.thread_b).
  vm_compute. reflexivity.
Defined.

(** X8: once a handler has answered, history no longer matters to the
    conditional edges: on a sequence whose latest Turn is not human the
    answer is [prompt] when that Turn is a tool call and [END] otherwise,
    never [info]. *)
Theorem get_state_after_reply (thread : list message) (latest : message) :
  msg_role latest ≠ human →
  get_state (thread ++ [latest]) = Ok (if _is_tool_call latest then prompt else END)
  ∧ conditional_edges info (thread ++ [latest]) ≠ Ok info
  ∧ conditional_edges prompt (thread ++ [latest]) ≠ Ok info.
Proof.
  intros Hh.
  assert (get_state (thread ++ [latest])
          = Ok (if _is_tool_call latest then prompt else END)) as Hg.
  { rewrite (get_state_unfold _ latest) by apply last_snoc.
    destruct (_is_tool_call latest); [done|].
    unfold isinstance_HumanMessage. by rewrite (bool_decide_eq_false_2 _ Hh). }
  split; [done|]. unfold conditional_edges, nodes. rewrite Hg. simpl.
  by destruct (_is_tool_call latest).
Qed.

Lemma get_state_after_reply_witness :
  get_state (Sample.gathering ++ [AIMessage "Which variables?" ∅])
  = Ok (if _is_tool_call (AIMessage "Which variables?" ∅) then prompt else END)
  ∧ conditional_edges info (Sample.gathering ++ [AIMessage "Which variables?" ∅])
    ≠ Ok info
  ∧ conditional_edges prompt (Sample.gathering ++ [AIMessage "Which variables?" ∅])
    ≠ Ok info.
Proof.
  apply (get_state_after_reply Sample.gathering (AIMessage "Which variables?" ∅)).
  discriminate.
Defined.

(** X9: the system instruction that [get_messages_info] puts in front does
    not change the state: on a non-empty sequence [get_state] answers the
    same with and without it, and the request built from an empty sequence
    is in state [END] where the empty sequence itself raises. *)
Theorem get_state_get_messages_info (messages : list message) :
  get_state (get_messages_info messages)
  = match messages with
    | [] => Ok END
    | _ :: _ => get_state messages
    end.
Proof.
  destruct messages as [|m rest]; [done|].
  unfold get_messages_info. simpl app.
  destruct (last (m :: rest)) as [latest|] eqn:Hlast.
  - rewrite (get_state_unfold (m :: rest) latest Hlast).
    rewrite (get_state_unfold (SystemMessage template :: m :: rest) latest)
      by (by rewrite last_cons_cons).
    done.
  - by apply last_None in Hlast.
Qed.

(** ** Errors of the Generating handler *)



(** ** The interactive loop *)

Section SessionLoop.

Context {G V : Type} (show : V → string)
  (stream : G → string → G * list (list (string * V)) * option exn).

(** X11: the loop stops at a quit input: lines typed after ["q"] or ["Q"]
    are never read, so they change neither what is printed nor how the
    session ends. *)
Theorem session_stops_at_quit (before after : list string) (q : string) (g : G) :
  q ∈ Session.quit_inputs →
  Session.session G V show stream (before ++ q :: after) g
  = Session.session G V show stream (before ++ [q]) g.
Proof.
  intros Hq. revert g.
  induction before as [|user rest IH]; intros g; simpl.
  - by rewrite (bool_decide_eq_true_2 _ Hq).
  - destruct (bool_decide (user ∈ Session.quit_inputs)); [done|].
    destruct (stream g user) as [[g' outputs] [e|]]; [done|].
    by rewrite IH.
Qed.

(** X12: a session ends by [break] only on a quit input: when it does, one
    of the lines read is ["q"] or ["Q"] and the last thing printed is the
    farewell; a script without such a line ends in [EOFError] or in an
    exception of the graph. *)
Theorem session_quit_only_on_request (inputs : list string) (g : G) :
  (Session.session G V show stream inputs g).2 = Session.Quit →
  (∃ q, q ∈ inputs ∧ (q = "q" ∨ q = "Q"))
  ∧ last (Session.session G V show stream inputs g).1
    = Some (Session.Print "AI: Byebye").
Proof.
  revert g. induction inputs as [|user rest IH]; intros g; simpl; [done|].
  destruct (bool_decide (user ∈ Session.quit_inputs)) eqn:Hq.
  - intros _. split; [|done]. exists user. split; [by left|].
    apply bool_decide_eq_true_1 in Hq. unfold Session.quit_inputs in Hq.
    set_solver.
  - destruct (stream g user) as [[g' outputs] [e|]]; [done|].
    specialize (IH g').
    destruct (Session.session G V show stream rest g') as [later how]. simpl in *.
    intros Hhow. destruct (IH Hhow) as [(q & Hin & Hqq) Hlast].
    split; [exists q; split; [by right|done]|].
    rewrite app_comm_cons. rewrite last_app. by rewrite Hlast.
Qed.

End SessionLoop.

Lemma session_stops_at_quit_witness :
  Session.session nat string id Cases.echo (["hi!"] ++ "Q" :: ["more"; "lines"]) 0
  = Session.session nat string id Cases.echo (["hi!"] ++ ["Q"]) 0.
Proof.
  apply (session_stops_at_quit id Cases.echo ["hi!"] ["more"; "lines"] "Q" 0).
  unfold Session.quit_inputs. set_solver.
Defined.

Lemma session_quit_only_on_request_witness :
  (∃ q, q ∈ ["hi!"; "q"; "later"] ∧ (q = "q" ∨ q = "Q"))
  ∧ last (Session.session nat string id Cases.echo ["hi!"; "q"; "later"] 0).1
    = Some (Session.Print "AI: Byebye").
Proof.
  apply (session_quit_only_on_request id Cases.echo ["hi!"; "q"; "later"] 0).
  vm_compute. reflexivity.
Defined.

(** ** Where the payload of the instruction comes from *)

Lemma loop_payload_source (messages : list message) (tool_call : option string)
    (other : list message) (tc' : option string) (other' : list message) :
  get_prompt_messages_loop messages tool_call other = Ok (tc', other') →
  (tc' = tool_call ∧ Forall (λ m, _is_tool_call m = false) messages)
  ∨ (∃ before m after a,
       messages = before ++ m :: after
       ∧ _is_tool_call m = true
       ∧ Forall (λ x, _is_tool_call x = false) after
       ∧ tool_call_arguments m = Ok a
       ∧ tc' = Some a).
Proof.
  revert tool_call other.
  induction messages as [|m rest IH]; intros tool_call other; simpl.
  - intros [= <- _]. by left.
  - destruct (_is_tool_call m) eqn:Hc.
    + destruct (tool_call_arguments m) as [a|e] eqn:Ha; simpl; [|done].
      intros [[-> Hrest]|(before & m' & after & a' & -> & Hm' & Hafter & Ha' & ->)]%IH;
        right.
      * by exists [], m, rest, a.
      * by exists (m :: before), m', after, a'.
    + assert (∀ other0,
        get_prompt_messages_loop rest tool_call other0 = Ok (tc', other') →
        (tc' = tool_call ∧ Forall (λ x, _is_tool_call x = false) (m :: rest))
        ∨ (∃ before m' after a,
             m :: rest = before ++ m' :: after
             ∧ _is_tool_call m' = true
             ∧ Forall (λ x, _is_tool_call x = false) after
             ∧ tool_call_arguments m' = Ok a
             ∧ tc' = Some a)) as Hstep.
      { intros other0
          [[-> Hrest]|(before & m' & after & a' & -> & Hm' & Hafter & Ha' & ->)]%IH.
        - left. split; [done|by constructor].
        - right. by exists (m :: before), m', after, a'. }
      destruct (bool_decide (tool_call ≠ None)); apply Hstep.
Qed.

(** X13: where the value substituted into the instruction comes from.  A
    request the builder returns is either the instruction formatted with
    Python's [None] and nothing else, the input having no tool-call Turn; or
    the instruction formatted with the arguments extracted from the last
    tool-call Turn of the input, followed by the history. *)
Theorem get_prompt_messages_payload_present (messages request : list message) :
  get_prompt_messages messages = Ok request →
  (Forall (λ m, _is_tool_call m = false) messages
   ∧ request = [SystemMessage (prompt_system_format None)])
  ∨ (∃ before m after a history,
       messages = before ++ m :: after
       ∧ _is_tool_call m = true
       ∧ Forall (λ x, _is_tool_call x = false) after
       ∧ tool_call_arguments m = Ok a
       ∧ request = SystemMessage (prompt_system_format (Some a)) :: history).
Proof.
  unfold get_prompt_messages.
  destruct (get_prompt_messages_loop messages None []) as [[tc other]|e] eqn:Hloop;
    simpl; [|done].
  intros [= <-].
  destruct (loop_payload_source _ _ _ _ _ Hloop)
    as [[-> Hall]|(before & m & after & a & -> & Hm & Hafter & Ha & ->)].
  - left. split; [done|].
    rewrite (loop_before_first_call _ [] Hall) in Hloop. by injection Hloop as <-.
  - right. by exists before, m, after, a, other.
Qed.

Lemma get_prompt_messages_payload_present_witness :
  (Forall (λ m, _is_tool_call m = false) Sample.called_twice
   ∧ [SystemMessage (prompt_system_format (Some "second reqs"));
      HumanMessage "json please"; HumanMessage "shorter"]
     = [SystemMessage (prompt_system_format None)])
  ∨ (∃ before m after a history,
       Sample.called_twice = before ++ m :: after
       ∧ _is_tool_call m = true
       ∧ Forall (λ x, _is_tool_call x = false) after
       ∧ tool_call_arguments m = Ok a
       ∧ [SystemMessage (prompt_system_format (Some "second reqs"));
          HumanMessage "json please"; HumanMessage "shorter"]
         = SystemMessage (prompt_system_format (Some a)) :: history).
Proof.
  apply (get_prompt_messages_payload_present Sample.called_twice).
  vm_compute. reflexivity.
Defined.

(** ** A Generating handler that calls the tool *)




